(** * simple-google-mcp: the Drive relay of [main.py]

    A shallow embedding of the FastAPI application in
    [src/simple-google-mcp/main.py]: the credential extractor
    [get_credentials_from_request], the handlers [list_drive_files] and
    [health_check], and the two routes of [app].

    The process environment and the Google API client are the world the
    handlers run in; every read of the environment and every call into the
    client is recorded in a trace, so that "no upstream call" and "exactly
    one call" are statements about that trace. *)

From Stdlib Require Import ZArith NArith Ascii String.
From stdpp Require Import base option list strings gmap fin_maps.

Local Open Scope Z_scope.
Local Open Scope string_scope.

(** ** Python values *)

(** What [execute()] hands back is decoded JSON; a handler returns such a
    value too.  A float is kept as its literal. *)
#[warning="-register-all"]
Inductive pyval : Type :=
| PNone
| PBool (b : bool)
| PInt (n : Z)
| PFloat (lit : string)
| PStr (s : string)
| PList (l : list pyval)
| PDict (d : gmap string pyval).

(** [type(v).__name__], as it appears in an [AttributeError]. *)
Definition type_name (v : pyval) : string :=
  match v with
  | PNone => "NoneType"
  | PBool _ => "bool"
  | PInt _ => "int"
  | PFloat _ => "float"
  | PStr _ => "str"
  | PList _ => "list"
  | PDict _ => "dict"
  end.

(** Instances of [Exception]: the class the first [except] clause of
    [list_drive_files] singles out, and every other one, of which the
    handler uses [str(e)] only. *)
Inductive exn : Type :=
| HTTPException (status_code : Z) (detail : string)
| Error (cls : string) (msg : string).

(** [str(e)], for the exceptions of the second [except] clause. *)
Definition str_exn (e : exn) : string :=
  match e with
  | HTTPException _ detail => detail
  | Error _ msg => msg
  end.

(** ** Strings: [str.lower], [str.startswith], [str.split] *)

(** Header values reach the application decoded as Latin-1, one character
    per byte.  On that range [str.lower] maps A-Z and the accented capitals
    U+00C0-U+00DE (the sign U+00D7 apart) thirty-two places up and leaves
    every other character alone. *)
Definition lower_char (c : ascii) : ascii :=
  let n := N_of_ascii c in
  if (((65 <=? n) && (n <=? 90))
      || ((192 <=? n) && (n <=? 222) && negb (n =? 215)))%N
  then ascii_of_N (n + 32) else c.

Fixpoint lower (s : string) : string :=
  match s with
  | EmptyString => EmptyString
  | String c s' => String (lower_char c) (lower s')
  end.

(** [s.startswith(p)] *)
Fixpoint startswith (s p : string) : bool :=
  match p, s with
  | EmptyString, _ => true
  | String _ _, EmptyString => false
  | String a p', String c s' => if Ascii.eqb c a then startswith s' p' else false
  end.

(** [s.split(sep, maxsplit)] for a one-character separator. *)
Fixpoint split (sep : ascii) (maxsplit : nat) (s : string) : list string :=
  match s with
  | EmptyString => [EmptyString]
  | String c s' =>
      match maxsplit with
      | O => [s]
      | S m =>
          if Ascii.eqb c sep then EmptyString :: split sep m s'
          else match split sep maxsplit s' with
               | piece :: rest => String c piece :: rest
               | [] => [String c EmptyString]
               end
      end
  end.

(** ** Requests, credentials and the world *)

(** [SCOPES], lines 10-52. *)
Definition SCOPES : list string :=
  [ "https://www.googleapis.com/auth/userinfo.email";
    "openid";
    "https://www.googleapis.com/auth/calendar.readonly";
    "https://www.googleapis.com/auth/calendar.events";
    "https://www.googleapis.com/auth/drive.readonly";
    "https://www.googleapis.com/auth/drive.file";
    "https://www.googleapis.com/auth/gmail.readonly";
    "https://www.googleapis.com/auth/gmail.send";
    "https://www.googleapis.com/auth/gmail.compose";
    "https://www.googleapis.com/auth/gmail.modify";
    "https://www.googleapis.com/auth/gmail.labels";
    "https://www.googleapis.com/auth/documents.readonly";
    "https://www.googleapis.com/auth/documents";
    "https://www.googleapis.com/auth/chat.messages.readonly";
    "https://www.googleapis.com/auth/chat.spaces.readonly";
    "https://www.googleapis.com/auth/chat.memberships.readonly";
    "https://www.googleapis.com/auth/chat.messages";
    "https://www.googleapis.com/auth/spreadsheets.readonly";
    "https://www.googleapis.com/auth/spreadsheets";
    "https://www.googleapis.com/auth/forms.body";
    "https://www.googleapis.com/auth/forms.body.readonly";
    "https://www.googleapis.com/auth/forms.responses.readonly";
    "https://www.googleapis.com/auth/presentations.readonly";
    "https://www.googleapis.com/auth/presentations" ].

(** [google.oauth2.credentials.Credentials], the four fields the
    constructor call of lines 70-75 sets. *)
Record Credentials : Type := mkCredentials {
  token : string;
  client_id : string;
  client_secret : string;
  scopes : list string;
}.

(** A request: its header lines, in the order received. *)
Record Request : Type := mkRequest {
  headers : list (string * string);
}.

(** [request.headers.get(key)]: header names compare without regard to
    case, the first matching line wins. *)
Fixpoint headers_get (hs : list (string * string)) (key : string) : option string :=
  match hs with
  | [] => None
  | (k, v) :: hs' =>
      if String.eqb (lower k) (lower key) then Some v else headers_get hs' key
  end.

(** The Google API client library, [googleapiclient.discovery.build] and
    the [files().list(...).execute()] chain of a service it built.  Either
    may raise. *)
Record GoogleClient (Service : Type) : Type := mkGoogleClient {
  build : string -> string -> Credentials -> exn + Service;
  files_list_execute : Service -> Z -> string -> exn + pyval;
}.
Arguments build {Service} _ _ _ _.
Arguments files_list_execute {Service} _ _ _ _.

(** ** Effects *)

Inductive event : Type :=
| EvGetenv (name : string)
| EvBuild (serviceName version : string) (credentials : Credentials)
| EvFilesList (pageSize : Z) (fields : string).

(** A computation: the events it performed, and how it ended. *)
Definition M (A : Type) : Type := list event * (exn + A).

Definition ret {A} (x : A) : M A := ([], inr x).
Definition raise {A} (e : exn) : M A := ([], inl e).

Definition bind {A B} (m : M A) (f : A -> M B) : M B :=
  match m with
  | (t, inl e) => (t, inl e)
  | (t, inr x) => let '(t', r) := f x in ((t ++ t')%list, r)
  end.

(** [try: m  except Exception as e: h e] *)
Definition try_except {A} (m : M A) (h : exn -> M A) : M A :=
  match m with
  | (t, inl e) => let '(t', r) := h e in ((t ++ t')%list, r)
  | (t, inr x) => (t, inr x)
  end.

Notation "x <- m ;; k" := (bind m (fun x => k))
  (at level 100, m at next level, right associativity).

(** Is this event a call into the Google client? *)
Definition is_upstream (ev : event) : bool :=
  match ev with
  | EvGetenv _ => false
  | EvBuild _ _ _ | EvFilesList _ _ => true
  end.

Definition upstream_calls (t : list event) : list event := filter is_upstream t.

(** The [files().list(...)] calls of a trace, with their arguments. *)
Fixpoint files_list_calls (t : list event) : list (Z * string) :=
  match t with
  | [] => []
  | EvFilesList pageSize fields :: t' => (pageSize, fields) :: files_list_calls t'
  | _ :: t' => files_list_calls t'
  end.

(** Python truthiness of an optional string: [None] and [""] are false. *)
Definition truthy (o : option string) : bool :=
  match o with
  | None => false
  | Some EmptyString => false
  | Some (String _ _) => true
  end.

(** [d.get(key, default)]; anything but a dict has no [get]. *)
Definition py_get (v : pyval) (key : string) (dflt : pyval) : M pyval :=
  match v with
  | PDict d => ret (default dflt (d !! key))
  | _ => raise (Error "AttributeError"
                  ("'" +:+ type_name v +:+ "' object has no attribute 'get'"))
  end.

(** What a handler returns: a JSON-able value, or, on line 95, an
    exception object. *)
Inductive retval : Type :=
| RetValue (v : pyval)
| RetHTTPException (status_code : Z) (detail : string).

Section Handlers.
Context {Service : Type}.
Variable environ : gmap string string.
Variable google : GoogleClient Service.

(** [os.getenv(name)] *)
Definition getenv (name : string) : M (option string) :=
  ([EvGetenv name], inr (environ !! name)).

Definition call_build (serviceName version : string) (c : Credentials) : M Service :=
  ([EvBuild serviceName version c], build google serviceName version c).

Definition call_files_list (svc : Service) (pageSize : Z) (fields : string) : M pyval :=
  ([EvFilesList pageSize fields], files_list_execute google svc pageSize fields).

(** Lines 54-75. *)
Definition get_credentials_from_request (request : Request) : M Credentials :=
  let auth_header := headers_get (headers request) "Authorization" in
  if negb (truthy auth_header)
     || negb (startswith (lower (default "" auth_header)) "bearer ")
  then raise (HTTPException 401 "Authorization header missing or invalid")
  else
    token <- match split " " 1 (default "" auth_header) !! 1%nat with
             | Some tok => ret tok
             | None => raise (Error "IndexError" "list index out of range")
             end ;;
    client_id <- getenv "GOOGLE_OAUTH_CLIENT_ID" ;;
    client_secret <- getenv "GOOGLE_OAUTH_CLIENT_SECRET" ;;
    if negb (truthy client_id) || negb (truthy client_secret)
    then raise (HTTPException 500
                  "Server is missing Google OAuth client configuration")
    else ret (mkCredentials token (default "" client_id)
                (default "" client_secret) SCOPES).

(** The [fields] argument of line 86. *)
Definition FIELDS : string :=
  "nextPageToken, files(id, name, mimeType, webViewLink)".

(** Lines 77-95. *)
Definition list_drive_files (request : Request) : M retval :=
  try_except
    (credentials <- get_credentials_from_request request ;;
     service <- call_build "drive" "v3" credentials ;;
     results <- call_files_list service 20 FIELDS ;;
     files <- py_get results "files" (PList []) ;;
     ret (RetValue (PDict {[ "files" := files ]})))
    (fun e =>
       match e with
       | HTTPException _ _ => raise e
       | Error _ _ =>
           ret (RetHTTPException 400
                  ("Error calling Google Drive API: " +:+ str_exn e))
       end).

(** Lines 97-99. *)
Definition health_check : M retval :=
  ret (RetValue (PDict {[ "status" := PStr "ok" ]})).

End Handlers.

(** ** The application: routes and responses *)

Inductive method : Type := GET | POST.

Record Response : Type := mkResponse {
  status : Z;
  body : pyval;
}.

(** What FastAPI makes of an endpoint's outcome.  A returned value is
    encoded under the route's default status 200, an object through its
    attributes; a raised [HTTPException] becomes its status and a
    [detail] body; any other exception is the server's 500.

    Two corners of the framework are not modelled: a returned value that
    holds a non-finite float, which the JSON encoder refuses with a 500,
    and a raised status that allows no body (below 200, 204, 205 and
    304), for which no [detail] is sent.  What is stated about the list
    a Drive response carries, and about an [HTTPException] of the Google
    client, is therefore stated on the handler's own outcome. *)
Definition respond (r : exn + retval) : Response :=
  match r with
  | inr (RetValue v) => mkResponse 200 v
  | inr (RetHTTPException s d) =>
      mkResponse 200
        (PDict {[ "status_code" := PInt s; "detail" := PStr d;
                  "headers" := PNone ]})
  | inl (HTTPException s d) => mkResponse s (PDict {[ "detail" := PStr d ]})
  | inl (Error _ _) => mkResponse 500 (PStr "Internal Server Error")
  end.

Section App.
Context {Service : Type}.
Variable environ : gmap string string.
Variable google : GoogleClient Service.

(** The routes registered by the decorators of lines 77 and 97. *)
Definition app (m : method) (path : string) (request : Request)
  : option (M retval) :=
  match m with
  | POST =>
      if String.eqb path "/gdrive/list_files"
      then Some (list_drive_files environ google request) else None
  | GET =>
      if String.eqb path "/health" then Some health_check else None
  end.

Definition serve (m : method) (path : string) (request : Request)
  : option (list event * Response) :=
  match app m path request with
  | Some (t, r) => Some (t, respond r)
  | None => None
  end.
End App.

(** ** Names for what the handlers raise and record *)

Definition UNAUTHORIZED : exn :=
  HTTPException 401 "Authorization header missing or invalid".

Definition MISCONFIGURED : exn :=
  HTTPException 500 "Server is missing Google OAuth client configuration".

(** The two reads of the environment, in the order of lines 64-65. *)
Definition ENV_READS : list event :=
  [EvGetenv "GOOGLE_OAUTH_CLIENT_ID"; EvGetenv "GOOGLE_OAUTH_CLIENT_SECRET"].

(** The two [except] clauses of lines 91-95, as a function of the
    exception caught. *)
Definition handled (e : exn) : exn + retval :=
  match e with
  | HTTPException _ _ => inl e
  | Error _ msg =>
      inr (RetHTTPException 400 ("Error calling Google Drive API: " +:+ msg))
  end.

(** ** The specification's words *)

(** The suffix of a string after its first space, if it has one. *)
Fixpoint after_first_space (s : string) : option string :=
  match s with
  | EmptyString => None
  | String c s' => if Ascii.eqb c " " then Some s' else after_first_space s'
  end.

(** The scope names as section 6 of the specification enumerates them. *)
Definition section6_scopes : list string :=
  [ "userinfo.email"; "openid"; "calendar.readonly"; "calendar.events";
    "drive.readonly"; "drive.file"; "gmail.readonly"; "gmail.send";
    "gmail.compose"; "gmail.modify"; "gmail.labels"; "documents.readonly";
    "documents"; "chat.messages.readonly"; "chat.spaces.readonly";
    "chat.memberships.readonly"; "chat.messages"; "spreadsheets.readonly";
    "spreadsheets"; "forms.body"; "forms.body.readonly";
    "forms.responses.readonly"; "presentations.readonly"; "presentations" ].

(** A scope's short name: the URL prefix of the Google scopes removed. *)
Definition AUTH_PREFIX : string := "https://www.googleapis.com/auth/".

Definition short_name (scope : string) : string :=
  if startswith scope AUTH_PREFIX
  then substring (String.length AUTH_PREFIX)
         (String.length scope - String.length AUTH_PREFIX) scope
  else scope.



Definition is_list (v : pyval) : bool :=
  match v with
  | PList _ => true
  | _ => false
  end.

(** ** Concrete worlds, to run the handlers on *)

Module Sample.
Definition environ : gmap string string :=
  {[ "GOOGLE_OAUTH_CLIENT_ID" := "my-client";
     "GOOGLE_OAUTH_CLIENT_SECRET" := "my-secret" ]}.

Definition bearer (h : string) : Request :=
  mkRequest [("Host", "localhost"); ("authorization", h)].

Definition no_header : Request := mkRequest [("Host", "localhost")].

(** A client whose [execute()] answers [reply]. *)
Definition client (reply : exn + pyval) : GoogleClient unit :=
  mkGoogleClient unit (fun _ _ _ => inr tt) (fun _ _ _ => reply).

Definition file (fields : list (string * string)) : pyval :=
  PDict (list_to_map (prod_map id PStr <$> fields)).

Definition summary (i : string) : pyval :=
  file [("id", i); ("name", "notes.txt"); ("mimeType", "text/plain");
        ("webViewLink", "https://drive.google.com/file/d/" +:+ i)].
End Sample.

(** ** More of the world: clients that fail *)

Definition is_dict (v : pyval) : bool :=
  match v with
  | PDict _ => true
  | _ => false
  end.

(** A client none of whose calls raises an [HTTPException] of its own. *)
Definition raises_no_http {Service : Type} (google : GoogleClient Service) : Prop :=
  (forall name version c s d,
     build google name version c <> inl (HTTPException s d)) /\
  (forall svc pageSize fields s d,
     files_list_execute google svc pageSize fields <> inl (HTTPException s d)).

Module Faulty.
(** A client whose [build] raises [e]. *)
Definition no_service (e : exn) : GoogleClient unit :=
  mkGoogleClient unit (fun _ _ _ => inl e) (fun _ _ _ => inr PNone).

(** An environment with more in it than the two configuration values. *)
Definition crowded_environ : gmap string string :=
  <[ "PATH" := "/usr/bin" ]> (<[ "HOME" := "/srv/app" ]> Sample.environ).

Definition many_headers (h : string) : Request :=
  mkRequest [("Accept", "*/*"); ("Authorization", h);
             ("X-Request-Id", "7"); ("authorization", "Basic other")].
End Faulty.

(** * Properties *)

(** ** Characters and strings *)

Example lower_mixed_case : lower "BeArEr x-Y_9" = "bearer x-y_9".
Proof. reflexivity. Qed.

Example split_at_first_space : split " " 1 "Bearer a b" = ["Bearer"; "a b"].
Proof. reflexivity. Qed.

Example split_without_separator : split " " 1 "Bearer" = ["Bearer"].
Proof. reflexivity. Qed.

Example headers_get_any_case :
  headers_get [("Host", "h"); ("AUTHORIZATION", "Bearer t")] "Authorization"
  = Some "Bearer t".
Proof. reflexivity. Qed.

Lemma lower_char_space (c : ascii) : lower_char c = " "%char -> c = " "%char.
Proof.
  destruct c as [[] [] [] [] [] [] [] []]; vm_compute; congruence.
Qed.

Lemma lower_char_not_space (c a : ascii) :
  lower_char c = a -> a <> " "%char -> Ascii.eqb c " " = false.
Proof.
  intros Hc Ha. apply Ascii.eqb_neq. intros ->. apply Ha. now rewrite <- Hc.
Qed.

Lemma startswith_lower_cons (h p : string) (a : ascii) :
  startswith (lower h) (String a p) = true ->
  exists c h', h = String c h' /\ lower_char c = a /\
               startswith (lower h') p = true.
Proof.
  destruct h as [|c h']; simpl; [discriminate|].
  destruct (Ascii.eqb_spec (lower_char c) a) as [Hc|]; [eauto | discriminate].
Qed.

(** A header that passes the prefix check is six characters that are not
    spaces, a space, and the rest. *)
Lemma bearer_header_shape (h : string) :
  startswith (lower h) "bearer " = true ->
  exists scheme rest,
    h = scheme +:+ String " " rest /\ lower scheme = "bearer" /\
    split " " 1 h = [scheme; rest] /\ after_first_space h = Some rest.
Proof.
  intros H.
  apply startswith_lower_cons in H as (c0 & h0 & -> & E0 & H).
  apply startswith_lower_cons in H as (c1 & h1 & -> & E1 & H).
  apply startswith_lower_cons in H as (c2 & h2 & -> & E2 & H).
  apply startswith_lower_cons in H as (c3 & h3 & -> & E3 & H).
  apply startswith_lower_cons in H as (c4 & h4 & -> & E4 & H).
  apply startswith_lower_cons in H as (c5 & h5 & -> & E5 & H).
  apply startswith_lower_cons in H as (c6 & rest & -> & E6 & _).
  apply lower_char_space in E6 as ->.
  exists (String c0 (String c1 (String c2 (String c3
            (String c4 (String c5 EmptyString)))))), rest.
  pose proof (lower_char_not_space _ _ E0 ltac:(discriminate)) as N0.
  pose proof (lower_char_not_space _ _ E1 ltac:(discriminate)) as N1.
  pose proof (lower_char_not_space _ _ E2 ltac:(discriminate)) as N2.
  pose proof (lower_char_not_space _ _ E3 ltac:(discriminate)) as N3.
  pose proof (lower_char_not_space _ _ E4 ltac:(discriminate)) as N4.
  pose proof (lower_char_not_space _ _ E5 ltac:(discriminate)) as N5.
  simpl. rewrite N0, N1, N2, N3, N4, N5, E0, E1, E2, E3, E4, E5. simpl.
  destruct rest; auto.
Qed.

Lemma truthy_true (o : option string) :
  truthy o = true <-> exists s, o = Some s /\ s <> "".
Proof.
  split.
  - destruct o as [[|c s]|]; simpl; try discriminate.
    intros _. exists (String c s). split; [reflexivity | discriminate].
  - intros (s & -> & Hs). destruct s; [contradiction | reflexivity].
Qed.

Lemma truthy_empty_is_none : truthy (Some "") = truthy None.
Proof. reflexivity. Qed.

(** ** The credential extractor *)

Section Extractor.
Variable environ : gmap string string.
Variable request : Request.

Lemma extract_rejects_header :
  headers_get (headers request) "Authorization" = None \/
  (exists h, headers_get (headers request) "Authorization" = Some h /\
             startswith (lower h) "bearer " = false) ->
  get_credentials_from_request environ request = ([], inl UNAUTHORIZED).
Proof.
  unfold get_credentials_from_request.
  intros [-> | (h & -> & Hh)]; simpl; [reflexivity|].
  rewrite Hh. now rewrite orb_true_r.
Qed.

Lemma extract_accepts_header (h : string) :
  headers_get (headers request) "Authorization" = Some h ->
  startswith (lower h) "bearer " = true ->
  exists scheme tok,
    h = scheme +:+ String " " tok /\ lower scheme = "bearer" /\
    after_first_space h = Some tok /\
    get_credentials_from_request environ request =
      (ENV_READS,
       if negb (truthy (environ !! "GOOGLE_OAUTH_CLIENT_ID"))
          || negb (truthy (environ !! "GOOGLE_OAUTH_CLIENT_SECRET"))
       then inl MISCONFIGURED
       else inr (mkCredentials tok
                   (default "" (environ !! "GOOGLE_OAUTH_CLIENT_ID"))
                   (default "" (environ !! "GOOGLE_OAUTH_CLIENT_SECRET"))
                   SCOPES)).
Proof.
  intros Hget Hpre.
  destruct (bearer_header_shape h Hpre) as (scheme & tok & Hh & Hs & Hsplit & Haft).
  exists scheme, tok. repeat split; try assumption.
  unfold get_credentials_from_request.
  rewrite Hget. simpl default. rewrite Hpre, Hsplit.
  assert (truthy (Some h) = true) as ->.
  { apply truthy_true. exists h. split; [reflexivity|].
    intros ->. discriminate Hpre. }
  simpl.
  destruct (negb (truthy (environ !! "GOOGLE_OAUTH_CLIENT_ID"))
            || negb (truthy (environ !! "GOOGLE_OAUTH_CLIENT_SECRET")));
    reflexivity.
Qed.

(** Every way the extractor can end. *)
Lemma extract_cases :
  get_credentials_from_request environ request = ([], inl UNAUTHORIZED) \/
  get_credentials_from_request environ request = (ENV_READS, inl MISCONFIGURED) \/
  exists creds,
    get_credentials_from_request environ request = (ENV_READS, inr creds) /\
    scopes creds = SCOPES.
Proof.
  destruct (headers_get (headers request) "Authorization") as [h|] eqn:Hget.
  - destruct (startswith (lower h) "bearer ") eqn:Hpre.
    + destruct (extract_accepts_header h Hget Hpre) as (_ & tok & _ & _ & _ & ->).
      destruct (negb _ || negb _); eauto.
    + left. apply extract_rejects_header. eauto.
  - left. apply extract_rejects_header. auto.
Qed.
End Extractor.

(** ** The Drive lister *)

Section Lister.
Context {Service : Type}.
Variable environ : gmap string string.
Variable google : GoogleClient Service.
Variable request : Request.

(** The handler, one outcome of its calls at a time. *)
Lemma list_drive_files_eq :
  list_drive_files environ google request =
    match get_credentials_from_request environ request with
    | (t, inl e) => (t, handled e)
    | (t, inr creds) =>
        match build google "drive" "v3" creds with
        | inl e => ((t ++ [EvBuild "drive" "v3" creds])%list, handled e)
        | inr svc =>
            ((t ++ [EvBuild "drive" "v3" creds; EvFilesList 20 FIELDS])%list,
             match files_list_execute google svc 20 FIELDS with
             | inl e => handled e
             | inr (PDict d) =>
                 inr (RetValue
                        (PDict {[ "files" := default (PList []) (d !! "files") ]}))
             | inr v =>
                 inr (RetHTTPException 400
                        ("Error calling Google Drive API: '" +:+ type_name v
                         +:+ "' object has no attribute 'get'"))
             end)
        end
    end.
Proof.
  unfold list_drive_files.
  destruct (get_credentials_from_request environ request) as [t [e|creds]];
    simpl.
  { destruct e; simpl; now rewrite app_nil_r. }
  unfold call_build.
  destruct (build google "drive" "v3" creds) as [e|svc]; simpl.
  { destruct e; simpl; now rewrite !app_nil_r. }
  unfold call_files_list.
  destruct (files_list_execute google svc 20 FIELDS) as [e|v]; simpl.
  { destruct e; simpl; now rewrite !app_nil_r. }
  destruct v; simpl; now rewrite ?app_nil_r.
Qed.
End Lister.

(** ** The claims *)

Section Claims.
Context {Service : Type}.
Variable environ : gmap string string.
Variable google : GoogleClient Service.
Variable request : Request.

(** C1. When credential extraction succeeds and the Drive "list files"
    call raises an exception that is not an [HTTPException], the handler
    ends with an [HTTPException] object of status 400 whose detail is
    "Error calling Google Drive API: " followed by the exception's message,
    and that object is the handler's return value: nothing is raised. *)
Theorem upstream_error_returned_as_400
    (t : list event) (creds : Credentials) (svc : Service) (cls msg : string) :
  get_credentials_from_request environ request = (t, inr creds) ->
  build google "drive" "v3" creds = inr svc ->
  files_list_execute google svc 20 FIELDS = inl (Error cls msg) ->
  list_drive_files environ google request =
    ((t ++ [EvBuild "drive" "v3" creds; EvFilesList 20 FIELDS])%list,
     inr (RetHTTPException 400 ("Error calling Google Drive API: " +:+ msg))).
Proof.
  intros Hcreds Hbuild Hlist.
  rewrite list_drive_files_eq, Hcreds, Hbuild, Hlist. reflexivity.
Qed.

(** C2. A request to POST /gdrive/list_files without an Authorization
    header, or with one that does not begin with "bearer " compared
    without regard to case, fails with status 401 and the detail
    "Authorization header missing or invalid".  The trace is empty:
    nothing was read or called before the failure.  The handler raises
    the very exception the extractor raised, and the response carries its
    status and detail. *)
Theorem unauthorized_before_upstream :
  headers_get (headers request) "Authorization" = None \/
  (exists h, headers_get (headers request) "Authorization" = Some h /\
             startswith (lower h) "bearer " = false) ->
  get_credentials_from_request environ request =
    ([], inl (HTTPException 401 "Authorization header missing or invalid")) /\
  list_drive_files environ google request =
    ([], inl (HTTPException 401 "Authorization header missing or invalid")) /\
  serve environ google POST "/gdrive/list_files" request =
    Some ([], mkResponse 401
                (PDict {[ "detail" :=
                            PStr "Authorization header missing or invalid" ]})).
Proof.
  intros H. apply extract_rejects_header with (environ := environ) in H.
  assert (list_drive_files environ google request = ([], inl UNAUTHORIZED)) as Hl
    by (rewrite list_drive_files_eq, H; reflexivity).
  repeat split; [exact H | exact Hl |].
  unfold serve, app. simpl. now rewrite Hl.
Qed.

(** C4. With a header that passes the prefix check, a missing
    GOOGLE_OAUTH_CLIENT_ID or GOOGLE_OAUTH_CLIENT_SECRET makes the request
    fail with status 500 and the detail "Server is missing Google OAuth
    client configuration".  The extractor raises instead of returning a
    credential, and the trace holds the two reads of the environment and
    no call into the Google client. *)
Theorem missing_oauth_configuration (h : string) :
  headers_get (headers request) "Authorization" = Some h ->
  startswith (lower h) "bearer " = true ->
  environ !! "GOOGLE_OAUTH_CLIENT_ID" = None \/
  environ !! "GOOGLE_OAUTH_CLIENT_SECRET" = None ->
  exists t,
    get_credentials_from_request environ request =
      (t, inl (HTTPException 500
                 "Server is missing Google OAuth client configuration")) /\
    list_drive_files environ google request =
      (t, inl (HTTPException 500
                 "Server is missing Google OAuth client configuration")) /\
    upstream_calls t = [] /\
    serve environ google POST "/gdrive/list_files" request =
      Some (t, mkResponse 500
                 (PDict {[ "detail" :=
                     PStr "Server is missing Google OAuth client configuration" ]})).
Proof.
  intros Hget Hpre Henv.
  destruct (extract_accepts_header environ request h Hget Hpre)
    as (_ & tok & _ & _ & _ & Hc).
  assert (negb (truthy (environ !! "GOOGLE_OAUTH_CLIENT_ID"))
          || negb (truthy (environ !! "GOOGLE_OAUTH_CLIENT_SECRET")) = true) as Hm.
  { destruct Henv as [-> | ->]; simpl; [reflexivity | apply orb_true_r]. }
  rewrite Hm in Hc.
  assert (list_drive_files environ google request = (ENV_READS, inl MISCONFIGURED))
    as Hl by (rewrite list_drive_files_eq, Hc; reflexivity).
  exists ENV_READS. repeat split; [exact Hc | exact Hl |].
  unfold serve, app. simpl. now rewrite Hl.
Qed.

(** C9. GOOGLE_OAUTH_CLIENT_ID or GOOGLE_OAUTH_CLIENT_SECRET set to the
    empty string counts as missing: with a header that passes the prefix
    check the request fails with status 500, and the handler does exactly
    what it does in the environment with that variable removed. *)
Theorem empty_configuration_is_missing (h name : string) :
  headers_get (headers request) "Authorization" = Some h ->
  startswith (lower h) "bearer " = true ->
  name = "GOOGLE_OAUTH_CLIENT_ID" \/ name = "GOOGLE_OAUTH_CLIENT_SECRET" ->
  environ !! name = Some "" ->
  list_drive_files environ google request =
    (ENV_READS,
     inl (HTTPException 500
            "Server is missing Google OAuth client configuration")) /\
  list_drive_files environ google request =
    list_drive_files (delete name environ) google request /\
  serve environ google POST "/gdrive/list_files" request =
    Some (ENV_READS,
          mkResponse 500
            (PDict {[ "detail" :=
                PStr "Server is missing Google OAuth client configuration" ]})).
Proof.
  intros Hget Hpre Hname Hempty.
  destruct (extract_accepts_header environ request h Hget Hpre)
    as (_ & tok & _ & _ & Haft & Hc).
  destruct (extract_accepts_header (delete name environ) request h Hget Hpre)
    as (_ & tok' & _ & _ & Haft' & Hc').
  assert (negb (truthy (environ !! "GOOGLE_OAUTH_CLIENT_ID"))
          || negb (truthy (environ !! "GOOGLE_OAUTH_CLIENT_SECRET")) = true) as Hm.
  { destruct Hname as [-> | ->]; rewrite Hempty; simpl;
      [reflexivity | apply orb_true_r]. }
  assert (negb (truthy (delete name environ !! "GOOGLE_OAUTH_CLIENT_ID"))
          || negb (truthy (delete name environ !! "GOOGLE_OAUTH_CLIENT_SECRET"))
          = true) as Hm'.
  { destruct Hname as [-> | ->]; rewrite lookup_delete_eq; simpl;
      [reflexivity | apply orb_true_r]. }
  rewrite Hm in Hc. rewrite Hm' in Hc'.
  assert (list_drive_files environ google request = (ENV_READS, inl MISCONFIGURED))
    as Hl by (rewrite list_drive_files_eq, Hc; reflexivity).
  repeat split; [exact Hl | |].
  - now rewrite Hl, list_drive_files_eq, Hc'.
  - unfold serve, app. simpl. now rewrite Hl.
Qed.

(** C10. With a header that passes the prefix check and both
    configuration values set and not empty, the extractor returns a
    credential whose token is the header's suffix after its first space,
    character for character: the header is a scheme that lowers to
    "bearer", one space, and the token. *)
Theorem token_is_suffix_after_first_space (h cid secret : string) :
  headers_get (headers request) "Authorization" = Some h ->
  startswith (lower h) "bearer " = true ->
  environ !! "GOOGLE_OAUTH_CLIENT_ID" = Some cid -> cid <> "" ->
  environ !! "GOOGLE_OAUTH_CLIENT_SECRET" = Some secret -> secret <> "" ->
  exists scheme creds,
    get_credentials_from_request environ request = (ENV_READS, inr creds) /\
    after_first_space h = Some (token creds) /\
    h = scheme +:+ String " " (token creds) /\
    lower scheme = "bearer".
Proof.
  intros Hget Hpre Hid Hcid Hsec Hsecret.
  destruct (extract_accepts_header environ request h Hget Hpre)
    as (scheme & tok & Hh & Hs & Haft & Hc).
  rewrite Hid, Hsec in Hc.
  assert (truthy (Some cid) = true) as Ht1 by (apply truthy_true; eauto).
  assert (truthy (Some secret) = true) as Ht2 by (apply truthy_true; eauto).
  rewrite Ht1, Ht2 in Hc. simpl in Hc.
  exists scheme, (mkCredentials tok cid secret SCOPES). auto.
Qed.

(** C3, as the code has it.  Every credential the extractor constructs
    carries [SCOPES], whatever the request and the environment: the
    twenty-four scopes of lines 10-52, which are, by their short names and
    in order, the ones section 6 enumerates. *)
Theorem credential_scopes_fixed (t : list event) (creds : Credentials) :
  get_credentials_from_request environ request = (t, inr creds) ->
  scopes creds = SCOPES /\
  length (scopes creds) = 24%nat /\
  short_name <$> scopes creds = section6_scopes.
Proof.
  intros Hc.
  destruct (extract_cases environ request) as [H | [H | (c & H & Hs)]];
    rewrite H in Hc; try discriminate.
  injection Hc as _ <-. rewrite Hs. repeat split; reflexivity.
Qed.

(** C5, as the code has it.  When the handler returns a body, the trace
    holds exactly one "list files" call, made with pageSize 20 and the
    fields "nextPageToken, files(id, name, mimeType, webViewLink)", and
    the body is an object with the single member "files": the value the
    Drive response has under that key, unchanged, or the empty list when
    it has none.  So it is a list whenever the Drive response's "files"
    is one, and not otherwise. *)
Theorem successful_listing_calls_drive_once (t : list event) (body : pyval) :
  list_drive_files environ google request = (t, inr (RetValue body)) ->
  files_list_calls t =
    [(20, "nextPageToken, files(id, name, mimeType, webViewLink)")] /\
  exists creds svc d,
    get_credentials_from_request environ request = (ENV_READS, inr creds) /\
    build google "drive" "v3" creds = inr svc /\
    files_list_execute google svc 20
      "nextPageToken, files(id, name, mimeType, webViewLink)" = inr (PDict d) /\
    body = PDict {[ "files" := default (PList []) (d !! "files") ]} /\
    ((forall v, d !! "files" = Some v -> is_list v = true) ->
     exists l, body = PDict {[ "files" := PList l ]}).
Proof.
  rewrite list_drive_files_eq.
  destruct (extract_cases environ request) as [H | [H | (creds & H & _)]];
    rewrite H; try discriminate.
  destruct (build google "drive" "v3" creds) as [[]|svc] eqn:Hb; try discriminate.
  destruct (files_list_execute google svc 20 FIELDS) as [[]|[]] eqn:Hl;
    try discriminate.
  intros [= <- <-]. split; [reflexivity|].
  exists creds, svc, d. repeat split; try assumption.
  intros Hlist. destruct (d !! "files") as [v|] eqn:Hf; simpl; [|eauto].
  specialize (Hlist v eq_refl). destruct v; try discriminate. eauto.
Qed.


(** C8. When extraction and [build] succeed and the Drive response is an
    object without a "files" key, the handler does not fail: it returns
    the body with an empty "files" list, and the response has status
    200. *)
Theorem missing_files_key_gives_empty_list
    (t : list event) (creds : Credentials) (svc : Service)
    (d : gmap string pyval) :
  get_credentials_from_request environ request = (t, inr creds) ->
  build google "drive" "v3" creds = inr svc ->
  files_list_execute google svc 20 FIELDS = inr (PDict d) ->
  d !! "files" = None ->
  list_drive_files environ google request =
    ((t ++ [EvBuild "drive" "v3" creds; EvFilesList 20 FIELDS])%list,
     inr (RetValue (PDict {[ "files" := PList [] ]}))) /\
  serve environ google POST "/gdrive/list_files" request =
    Some ((t ++ [EvBuild "drive" "v3" creds; EvFilesList 20 FIELDS])%list,
          mkResponse 200 (PDict {[ "files" := PList [] ]})).
Proof.
  intros Hc Hb Hl Hf.
  assert (list_drive_files environ google request =
            ((t ++ [EvBuild "drive" "v3" creds; EvFilesList 20 FIELDS])%list,
             inr (RetValue (PDict {[ "files" := PList [] ]})))) as H
    by (rewrite list_drive_files_eq, Hc, Hb, Hl, Hf; reflexivity).
  split; [exact H|]. unfold serve, app. simpl. now rewrite H.
Qed.

(** C7. GET /health is routed to [health_check], which takes nothing from
    the request, the environment or the Google client; it returns the
    body with "status" set to "ok" and an empty trace, and the response
    has status 200. *)
Theorem health_check_constant :
  app environ google GET "/health" request = Some health_check /\
  health_check = ([], inr (RetValue (PDict {[ "status" := PStr "ok" ]}))) /\
  serve environ google GET "/health" request =
    Some ([], mkResponse 200 (PDict {[ "status" := PStr "ok" ]})).
Proof. repeat split. Qed.

End Claims.

(** ** The claims at concrete requests *)

Lemma upstream_error_returned_as_400_witness :
  list_drive_files Sample.environ
    (Sample.client (inl (Error "HttpError" "token expired")))
    (Sample.bearer "Bearer ya29.abc") =
    ((ENV_READS ++
      [EvBuild "drive" "v3"
         (mkCredentials "ya29.abc" "my-client" "my-secret" SCOPES);
       EvFilesList 20 FIELDS])%list,
     inr (RetHTTPException 400 "Error calling Google Drive API: token expired")).
Proof.
  apply (upstream_error_returned_as_400 Sample.environ
           (Sample.client (inl (Error "HttpError" "token expired")))
           (Sample.bearer "Bearer ya29.abc") ENV_READS
           (mkCredentials "ya29.abc" "my-client" "my-secret" SCOPES)
           tt "HttpError" "token expired"); reflexivity.
Defined.

Lemma unauthorized_before_upstream_witness :
  list_drive_files Sample.environ (Sample.client (inr PNone))
    (Sample.bearer "Basic dXNlcjpwdw==") =
    ([], inl (HTTPException 401 "Authorization header missing or invalid")).
Proof.
  apply (unauthorized_before_upstream Sample.environ
           (Sample.client (inr PNone)) (Sample.bearer "Basic dXNlcjpwdw==")).
  right. exists "Basic dXNlcjpwdw==". split; reflexivity.
Defined.

Lemma missing_oauth_configuration_witness :
  exists t,
    list_drive_files (delete "GOOGLE_OAUTH_CLIENT_SECRET" Sample.environ)
      (Sample.client (inr PNone)) (Sample.bearer "Bearer ya29.abc") =
      (t, inl (HTTPException 500
                 "Server is missing Google OAuth client configuration")) /\
    upstream_calls t = [].
Proof.
  assert (delete "GOOGLE_OAUTH_CLIENT_SECRET" Sample.environ
            !! "GOOGLE_OAUTH_CLIENT_ID" = None \/
          delete "GOOGLE_OAUTH_CLIENT_SECRET" Sample.environ
            !! "GOOGLE_OAUTH_CLIENT_SECRET" = None) as Henv
    by (right; reflexivity).
  destruct (missing_oauth_configuration
              (delete "GOOGLE_OAUTH_CLIENT_SECRET" Sample.environ)
              (Sample.client (inr PNone)) (Sample.bearer "Bearer ya29.abc")
              "Bearer ya29.abc" eq_refl eq_refl Henv)
    as (t & _ & Hl & Hu & _).
  exists t. split; assumption.
Defined.

Lemma empty_configuration_is_missing_witness :
  list_drive_files (<["GOOGLE_OAUTH_CLIENT_ID" := ""]> Sample.environ)
    (Sample.client (inr PNone)) (Sample.bearer "Bearer ya29.abc") =
    (ENV_READS,
     inl (HTTPException 500
            "Server is missing Google OAuth client configuration")).
Proof.
  apply (empty_configuration_is_missing
           (<["GOOGLE_OAUTH_CLIENT_ID" := ""]> Sample.environ)
           (Sample.client (inr PNone)) (Sample.bearer "Bearer ya29.abc")
           "Bearer ya29.abc" "GOOGLE_OAUTH_CLIENT_ID").
  - reflexivity.
  - reflexivity.
  - left. reflexivity.
  - vm_compute. reflexivity.
Defined.

(** The header with two spaces after the scheme: the token keeps the
    second one. *)
Lemma token_is_suffix_after_first_space_witness :
  exists creds,
    get_credentials_from_request Sample.environ (Sample.bearer "Bearer  x") =
      (ENV_READS, inr creds) /\
    token creds = " x".
Proof.
  destruct (token_is_suffix_after_first_space Sample.environ
              (Sample.bearer "Bearer  x") "Bearer  x" "my-client" "my-secret"
              eq_refl eq_refl eq_refl ltac:(discriminate)
              eq_refl ltac:(discriminate))
    as (scheme & creds & Hc & Haft & _).
  exists creds. split; [exact Hc|].
  simpl in Haft. congruence.
Defined.

Lemma credential_scopes_fixed_witness :
  exists creds,
    get_credentials_from_request Sample.environ (Sample.bearer "Bearer ya29.abc") =
      (ENV_READS, inr creds) /\
    length (scopes creds) = 24%nat.
Proof.
  exists (mkCredentials "ya29.abc" "my-client" "my-secret" SCOPES).
  split; [reflexivity|].
  apply (credential_scopes_fixed Sample.environ (Sample.bearer "Bearer ya29.abc")
           ENV_READS _ eq_refl).
Defined.

(** C3, as stated, fails: the credential's scope list has twenty-four
    entries, not twenty-three. *)
Lemma scope_list_has_not_23_entries :
  ~ (forall (environ : gmap string string) (request : Request)
            (t : list event) (creds : Credentials),
       get_credentials_from_request environ request = (t, inr creds) ->
       length (scopes creds) = 23%nat).
Proof.
  intros H.
  specialize (H Sample.environ (Sample.bearer "Bearer ya29.abc") ENV_READS
                (mkCredentials "ya29.abc" "my-client" "my-secret" SCOPES)
                eq_refl).
  discriminate H.
Qed.

Lemma successful_listing_calls_drive_once_witness :
  exists t body,
    list_drive_files Sample.environ
      (Sample.client
         (inr (PDict {[ "files" := PList [Sample.summary "1"; Sample.summary "2"] ]})))
      (Sample.bearer "Bearer ya29.abc") = (t, inr (RetValue body)) /\
    files_list_calls t =
      [(20, "nextPageToken, files(id, name, mimeType, webViewLink)")].
Proof.
  eexists _, _. split; [reflexivity|].
  eapply (successful_listing_calls_drive_once Sample.environ
            (Sample.client
               (inr (PDict {[ "files" :=
                                PList [Sample.summary "1"; Sample.summary "2"] ]})))
            (Sample.bearer "Bearer ya29.abc")).
  reflexivity.
Defined.


Lemma missing_files_key_gives_empty_list_witness :
  exists t,
    list_drive_files Sample.environ
      (Sample.client (inr (PDict {[ "nextPageToken" := PStr "p2" ]})))
      (Sample.bearer "Bearer ya29.abc") =
      (t, inr (RetValue (PDict {[ "files" := PList [] ]}))).
Proof.
  eexists.
  apply (missing_files_key_gives_empty_list Sample.environ
           (Sample.client (inr (PDict {[ "nextPageToken" := PStr "p2" ]})))
           (Sample.bearer "Bearer ya29.abc") ENV_READS
           (mkCredentials "ya29.abc" "my-client" "my-secret" SCOPES) tt
           {[ "nextPageToken" := PStr "p2" ]}); reflexivity.
Defined.

(** C5, as stated, fails: a Drive response whose "files" is null makes
    a successful request, with its one "list files" call, whose body
    holds that null and no list. *)
Lemma successful_body_need_not_hold_a_list :
  ~ (forall (environ : gmap string string) (google : GoogleClient unit)
            (request : Request) (t : list event) (body : pyval),
       list_drive_files environ google request = (t, inr (RetValue body)) ->
       files_list_calls t =
         [(20, "nextPageToken, files(id, name, mimeType, webViewLink)")] /\
       exists l, body = PDict {[ "files" := PList l ]}).
Proof.
  intros H.
  destruct (H Sample.environ
              (Sample.client (inr (PDict {[ "files" := PNone ]})))
              (Sample.bearer "Bearer ya29.abc") _ _ eq_refl)
    as (_ & l & Hbody).
  apply (f_equal (fun v => match v with
                           | PDict m => m !! "files"
                           | _ => None
                           end)) in Hbody.
  rewrite !lookup_singleton_eq in Hbody. discriminate Hbody.
Qed.


(** * Beyond the claims *)

(** ** More on strings *)

Lemma lower_app (a b : string) : lower (a +:+ b) = lower a +:+ lower b.
Proof. induction a as [|c a IH]; simpl; [reflexivity | now rewrite IH]. Qed.

Lemma lower_cons_inv (h s : string) (a : ascii) :
  lower h = String a s ->
  exists c h', h = String c h' /\ lower_char c = a /\ lower h' = s.
Proof.
  destruct h as [|c h']; simpl; [discriminate|].
  intros [= <- <-]. eauto.
Qed.

Lemma lower_nil_inv (h : string) : lower h = "" -> h = "".
Proof. destruct h; [reflexivity | discriminate]. Qed.

(** A scheme that lowers to "bearer" has no space in it. *)
Lemma bearer_scheme_then_token (scheme tok : string) :
  lower scheme = "bearer" ->
  after_first_space (scheme +:+ String " " tok) = Some tok.
Proof.
  intros H.
  apply lower_cons_inv in H as (c0 & h0 & -> & E0 & H).
  apply lower_cons_inv in H as (c1 & h1 & -> & E1 & H).
  apply lower_cons_inv in H as (c2 & h2 & -> & E2 & H).
  apply lower_cons_inv in H as (c3 & h3 & -> & E3 & H).
  apply lower_cons_inv in H as (c4 & h4 & -> & E4 & H).
  apply lower_cons_inv in H as (c5 & h5 & -> & E5 & H).
  apply lower_nil_inv in H as ->.
  simpl.
  rewrite (lower_char_not_space _ _ E0), (lower_char_not_space _ _ E1),
    (lower_char_not_space _ _ E2), (lower_char_not_space _ _ E3),
    (lower_char_not_space _ _ E4), (lower_char_not_space _ _ E5);
    (reflexivity || discriminate).
Qed.

Lemma split_zero (sep : ascii) (s : string) : split sep 0 s = [s].
Proof. destruct s; reflexivity. Qed.

(** X8. [s.split(" ", 1)] cuts at the first space and nowhere else: it
    gives the part before and the part after, which put back around one
    space are [s]; without a space it gives [s] alone.  So the index [1]
    of line 60 is the suffix after the first space, and is out of range
    exactly when there is no space. *)
Theorem split_once_at_first_space (s : string) :
  split " " 1 s !! 1%nat = after_first_space s /\
  match split " " 1 s with
  | [a] => s = a /\ after_first_space s = None
  | [a; b] => s = a +:+ String " " b /\ after_first_space a = None
  | _ => False
  end.
Proof.
  induction s as [|c s IH]; simpl; [auto|].
  destruct (Ascii.eqb_spec c " ") as [->|Hc].
  - rewrite split_zero. simpl. auto.
  - destruct IH as [IH1 IH2].
    destruct (split " " 1 s) as [|a [|b [|]]]; try contradiction; simpl in *.
    + destruct IH2 as [-> ?]. auto.
    + destruct IH2 as [-> Ha]. split; [assumption|]. split; [reflexivity|].
      apply Ascii.eqb_neq in Hc. now rewrite Hc.
Qed.

(** ** More on the credential extractor *)

(** The extractor looks at the Authorization header and at the two
    configuration values, and at nothing else. *)
Lemma get_credentials_ext (environ environ' : gmap string string)
    (request request' : Request) :
  headers_get (headers request) "Authorization" =
    headers_get (headers request') "Authorization" ->
  environ !! "GOOGLE_OAUTH_CLIENT_ID" = environ' !! "GOOGLE_OAUTH_CLIENT_ID" ->
  environ !! "GOOGLE_OAUTH_CLIENT_SECRET" =
    environ' !! "GOOGLE_OAUTH_CLIENT_SECRET" ->
  get_credentials_from_request environ request =
    get_credentials_from_request environ' request'.
Proof.
  intros Hh Hid Hsec. unfold get_credentials_from_request, getenv.
  now rewrite Hh, Hid, Hsec.
Qed.

Section Beyond.
Context {Service : Type}.
Variable environ : gmap string string.
Variable google : GoogleClient Service.
Variable request : Request.

(** X1. The extractor ends in one of three ways and no other: the 401
    before anything was read; the 500 after the two reads of the
    environment; or, after the same two reads, a credential made of the
    header's part after the scheme and its space, the two configuration
    values, both set and not empty, and [SCOPES].  The [IndexError] that
    line 60 could raise never happens. *)
Theorem extractor_outcomes :
  get_credentials_from_request environ request =
    ([], inl (HTTPException 401 "Authorization header missing or invalid")) \/
  get_credentials_from_request environ request =
    (ENV_READS,
     inl (HTTPException 500
            "Server is missing Google OAuth client configuration")) \/
  exists scheme tok cid secret,
    headers_get (headers request) "Authorization" =
      Some (scheme +:+ String " " tok) /\
    lower scheme = "bearer" /\
    environ !! "GOOGLE_OAUTH_CLIENT_ID" = Some cid /\
    environ !! "GOOGLE_OAUTH_CLIENT_SECRET" = Some secret /\
    truthy (Some cid) = true /\ truthy (Some secret) = true /\
    get_credentials_from_request environ request =
      (ENV_READS, inr (mkCredentials tok cid secret SCOPES)).
Proof.
  destruct (headers_get (headers request) "Authorization") as [h|] eqn:Hget.
  - destruct (startswith (lower h) "bearer ") eqn:Hpre.
    + destruct (extract_accepts_header environ request h Hget Hpre)
        as (scheme & tok & -> & Hs & _ & Hc).
      destruct (environ !! "GOOGLE_OAUTH_CLIENT_ID") as [cid|] eqn:Hid;
        [destruct (truthy (Some cid)) eqn:Hcid|];
        try (right; left; exact Hc).
      destruct (environ !! "GOOGLE_OAUTH_CLIENT_SECRET") as [secret|] eqn:Hsec;
        [destruct (truthy (Some secret)) eqn:Hsecret|];
        try (right; left; exact Hc).
      right; right. exists scheme, tok, cid, secret. auto 10.
    + left. apply extract_rejects_header. eauto.
  - left. apply extract_rejects_header. auto.
Qed.

(** X7. Whatever the token, the empty one and one with spaces included,
    and however the scheme "bearer" is cased, the header made of the
    scheme, one space and the token yields a credential with exactly that
    token, the two configuration values and [SCOPES]. *)
Theorem bearer_header_round_trip (scheme tok cid secret : string) :
  lower scheme = "bearer" ->
  headers_get (headers request) "Authorization" =
    Some (scheme +:+ String " " tok) ->
  environ !! "GOOGLE_OAUTH_CLIENT_ID" = Some cid -> cid <> "" ->
  environ !! "GOOGLE_OAUTH_CLIENT_SECRET" = Some secret -> secret <> "" ->
  get_credentials_from_request environ request =
    (ENV_READS, inr (mkCredentials tok cid secret SCOPES)).
Proof.
  intros Hs Hget Hid Hcid Hsec Hsecret.
  assert (startswith (lower (scheme +:+ String " " tok)) "bearer " = true)
    as Hpre by (rewrite lower_app, Hs; destruct tok; reflexivity).
  destruct (extract_accepts_header environ request _ Hget Hpre)
    as (scheme' & tok' & _ & _ & Haft & Hc).
  rewrite (bearer_scheme_then_token scheme tok Hs) in Haft.
  injection Haft as <-.
  rewrite Hid, Hsec in Hc.
  assert (truthy (Some cid) = true) as Ht1 by (apply truthy_true; eauto).
  assert (truthy (Some secret) = true) as Ht2 by (apply truthy_true; eauto).
  now rewrite Ht1, Ht2 in Hc.
Qed.

(** ** More on the Drive lister *)

(** X2. The handler raises nothing but an [HTTPException]: it either
    returns, or raises one.  Every other exception, from the extractor or
    from the Google client, is caught on line 93. *)
Theorem list_drive_files_raises_only_http :
  (exists t v, list_drive_files environ google request = (t, inr v)) \/
  (exists t s d,
     list_drive_files environ google request = (t, inl (HTTPException s d))).
Proof.
  rewrite list_drive_files_eq.
  destruct (get_credentials_from_request environ request) as [t [[]|creds]];
    simpl; eauto.
  destruct (build google "drive" "v3" creds) as [[]|svc]; simpl; eauto.
  destruct (files_list_execute google svc 20 FIELDS) as [[]|[]]; simpl; eauto.
Qed.

(** X3. An [HTTPException] raised by the Google client, by [build] or by
    the "list files" call, leaves the handler as it is, status and detail
    untouched (lines 91-92): it is not turned into the 400 object. *)
Theorem upstream_http_exception_reraised
    (t : list event) (creds : Credentials) (s : Z) (d : string) :
  get_credentials_from_request environ request = (t, inr creds) ->
  build google "drive" "v3" creds = inl (HTTPException s d) \/
  (exists svc,
     build google "drive" "v3" creds = inr svc /\
     files_list_execute google svc 20 FIELDS = inl (HTTPException s d)) ->
  (list_drive_files environ google request).2 = inl (HTTPException s d).
Proof.
  intros Hc Hup.
  rewrite list_drive_files_eq, Hc.
  destruct Hup as [-> | (svc & -> & ->)]; reflexivity.
Qed.

(** X4. When [build] raises an exception that is not an [HTTPException],
    the "list files" call is never made: the trace ends with the [build]
    call, and the handler returns the 400 object with the exception's
    message. *)
Theorem build_failure_skips_listing
    (t : list event) (creds : Credentials) (cls msg : string) :
  get_credentials_from_request environ request = (t, inr creds) ->
  build google "drive" "v3" creds = inl (Error cls msg) ->
  list_drive_files environ google request =
    ((ENV_READS ++ [EvBuild "drive" "v3" creds])%list,
     inr (RetHTTPException 400 ("Error calling Google Drive API: " +:+ msg))) /\
  files_list_calls (list_drive_files environ google request).1 = [].
Proof.
  intros Hc Hb.
  assert (t = ENV_READS) as ->.
  { destruct (extract_cases environ request) as [H | [H | (c & H & _)]];
      rewrite H in Hc; congruence. }
  rewrite list_drive_files_eq, Hc, Hb. split; reflexivity.
Qed.

(** X5. A Drive response that is not an object has no [get]: the
    [AttributeError] of line 89 is caught like an upstream failure, and
    the handler returns the 400 object whose detail names the type of
    the response. *)
Theorem non_dict_response_returned_as_400
    (t : list event) (creds : Credentials) (svc : Service) (v : pyval) :
  get_credentials_from_request environ request = (t, inr creds) ->
  build google "drive" "v3" creds = inr svc ->
  files_list_execute google svc 20 FIELDS = inr v ->
  is_dict v = false ->
  list_drive_files environ google request =
    ((t ++ [EvBuild "drive" "v3" creds; EvFilesList 20 FIELDS])%list,
     inr (RetHTTPException 400
            ("Error calling Google Drive API: '" +:+ type_name v
             +:+ "' object has no attribute 'get'"))).
Proof.
  intros Hc Hb Hl Hv.
  rewrite list_drive_files_eq, Hc, Hb, Hl.
  destruct v; try discriminate; reflexivity.
Qed.

(** X6. What the handler does, in order: nothing; or the two reads of the
    environment; or those, then one [build] of "drive" "v3" with the
    credential the extractor returned; or those, then one "list files"
    call with pageSize 20 and [FIELDS].  No call is made twice, none out
    of this order, and the Google client is called only with a credential
    the extractor returned. *)
Theorem list_drive_files_trace_shape :
  (list_drive_files environ google request).1 = [] \/
  (list_drive_files environ google request).1 = ENV_READS \/
  exists creds,
    get_credentials_from_request environ request = (ENV_READS, inr creds) /\
    ((list_drive_files environ google request).1 =
       (ENV_READS ++ [EvBuild "drive" "v3" creds])%list \/
     (list_drive_files environ google request).1 =
       (ENV_READS ++ [EvBuild "drive" "v3" creds; EvFilesList 20 FIELDS])%list).
Proof.
  rewrite list_drive_files_eq.
  destruct (extract_cases environ request) as [H | [H | (creds & H & _)]];
    rewrite H; simpl; auto.
  right; right. exists creds. split; [reflexivity|].
  destruct (build google "drive" "v3" creds) as [e|svc]; simpl; auto.
Qed.

(** X11. Whatever the Drive response has under "files" is forwarded as it
    is, a null or a string as well as a list: the default [[]] is for a
    missing key only.  Nothing else of the Drive response is forwarded:
    the body has the key "files" and no other, so the page token that
    [FIELDS] asks for never reaches the caller. *)
Theorem files_value_forwarded_alone
    (t : list event) (creds : Credentials) (svc : Service)
    (d : gmap string pyval) (v : pyval) :
  get_credentials_from_request environ request = (t, inr creds) ->
  build google "drive" "v3" creds = inr svc ->
  files_list_execute google svc 20 FIELDS = inr (PDict d) ->
  d !! "files" = Some v ->
  exists body : gmap string pyval,
    (list_drive_files environ google request).2 = inr (RetValue (PDict body)) /\
    body !! "files" = Some v /\
    dom body = {[ "files" ]}.
Proof.
  intros Hc Hb Hl Hf. exists {[ "files" := v ]}.
  rewrite list_drive_files_eq, Hc, Hb, Hl, Hf. simpl.
  split; [reflexivity|]. split; [apply lookup_singleton_eq|].
  apply dom_singleton_L.
Qed.

(** X10. The handler's trace and outcome depend on the request through
    its Authorization header only, and on the environment through
    GOOGLE_OAUTH_CLIENT_ID and GOOGLE_OAUTH_CLIENT_SECRET only. *)
Theorem only_authorization_and_configuration_matter
    (environ' : gmap string string) (request' : Request) :
  headers_get (headers request) "Authorization" =
    headers_get (headers request') "Authorization" ->
  environ !! "GOOGLE_OAUTH_CLIENT_ID" = environ' !! "GOOGLE_OAUTH_CLIENT_ID" ->
  environ !! "GOOGLE_OAUTH_CLIENT_SECRET" =
    environ' !! "GOOGLE_OAUTH_CLIENT_SECRET" ->
  list_drive_files environ google request =
    list_drive_files environ' google request'.
Proof.
  intros Hh Hid Hsec.
  rewrite !list_drive_files_eq.
  now rewrite (get_credentials_ext environ environ' request request' Hh Hid Hsec).
Qed.

(** X9. The 400 of line 95 is not the response's status.  When the "list
    files" call raises an exception that is not an [HTTPException], the
    returned object is encoded like any returned value: the response has
    status 200, and the 400 and the detail are members of its body. *)
Theorem returned_error_served_with_200
    (t : list event) (creds : Credentials) (svc : Service) (cls msg : string) :
  get_credentials_from_request environ request = (t, inr creds) ->
  build google "drive" "v3" creds = inr svc ->
  files_list_execute google svc 20 FIELDS = inl (Error cls msg) ->
  serve environ google POST "/gdrive/list_files" request =
    Some ((t ++ [EvBuild "drive" "v3" creds; EvFilesList 20 FIELDS])%list,
          mkResponse 200
            (PDict {[ "status_code" := PInt 400;
                      "detail" :=
                        PStr ("Error calling Google Drive API: " +:+ msg);
                      "headers" := PNone ]})).
Proof.
  intros Hc Hb Hl. unfold serve, app. simpl.
  rewrite list_drive_files_eq, Hc, Hb, Hl. reflexivity.
Qed.

(** X12. With a Google client that raises no [HTTPException] of its own,
    the response to POST /gdrive/list_files has status 200, 401 or 500,
    whatever happens: never 400. *)
Theorem status_is_200_401_or_500 :
  raises_no_http google ->
  exists t r,
    serve environ google POST "/gdrive/list_files" request = Some (t, r) /\
    (status r = 200 \/ status r = 401 \/ status r = 500).
Proof.
  intros [Hb Hl]. unfold serve, app. simpl.
  rewrite list_drive_files_eq.
  destruct (extract_cases environ request) as [H | [H | (creds & H & _)]];
    rewrite H; simpl; eauto 6.
  destruct (build google "drive" "v3" creds) as [[s d|cls msg]|svc] eqn:Eb;
    simpl; eauto 6.
  { exfalso. exact (Hb _ _ _ _ _ Eb). }
  destruct (files_list_execute google svc 20 FIELDS) as [[s d|cls msg]|v] eqn:El;
    simpl; eauto 6.
  { exfalso. exact (Hl _ _ _ _ _ El). }
  destruct v; simpl; eauto 6.
Qed.

End Beyond.

(** ** These at concrete requests *)

Lemma bearer_header_round_trip_witness :
  get_credentials_from_request Sample.environ
    (Faulty.many_headers "bEaReR a b c") =
    (ENV_READS, inr (mkCredentials "a b c" "my-client" "my-secret" SCOPES)).
Proof.
  apply (bearer_header_round_trip Sample.environ
           (Faulty.many_headers "bEaReR a b c")
           "bEaReR" "a b c" "my-client" "my-secret");
    (reflexivity || discriminate).
Defined.

Lemma upstream_http_exception_reraised_witness :
  (list_drive_files Sample.environ
     (Sample.client (inl (HTTPException 429 "Too Many Requests")))
     (Sample.bearer "Bearer ya29.abc")).2 =
    inl (HTTPException 429 "Too Many Requests").
Proof.
  apply (upstream_http_exception_reraised Sample.environ
           (Sample.client (inl (HTTPException 429 "Too Many Requests")))
           (Sample.bearer "Bearer ya29.abc") ENV_READS
           (mkCredentials "ya29.abc" "my-client" "my-secret" SCOPES)
           429 "Too Many Requests").
  - reflexivity.
  - right. exists tt. split; reflexivity.
Defined.

Lemma build_failure_skips_listing_witness :
  files_list_calls
    (list_drive_files Sample.environ
       (Faulty.no_service (Error "UnknownApiNameOrVersion" "name: drive"))
       (Sample.bearer "Bearer ya29.abc")).1 = [].
Proof.
  apply (build_failure_skips_listing Sample.environ
           (Faulty.no_service (Error "UnknownApiNameOrVersion" "name: drive"))
           (Sample.bearer "Bearer ya29.abc") ENV_READS
           (mkCredentials "ya29.abc" "my-client" "my-secret" SCOPES)
           "UnknownApiNameOrVersion" "name: drive"); reflexivity.
Defined.

Lemma non_dict_response_returned_as_400_witness :
  (list_drive_files Sample.environ (Sample.client (inr (PList [])))
     (Sample.bearer "Bearer ya29.abc")).2 =
    inr (RetHTTPException 400
           "Error calling Google Drive API: 'list' object has no attribute 'get'").
Proof.
  rewrite (non_dict_response_returned_as_400 Sample.environ
             (Sample.client (inr (PList [])))
             (Sample.bearer "Bearer ya29.abc") ENV_READS
             (mkCredentials "ya29.abc" "my-client" "my-secret" SCOPES)
             tt (PList [])); reflexivity.
Defined.

Lemma files_value_forwarded_alone_witness :
  exists body : gmap string pyval,
    (list_drive_files Sample.environ
       (Sample.client
          (inr (PDict {[ "files" := PNone; "nextPageToken" := PStr "p2" ]})))
       (Sample.bearer "Bearer ya29.abc")).2 = inr (RetValue (PDict body)) /\
    body !! "files" = Some PNone /\
    dom body = {[ "files" ]}.
Proof.
  apply (files_value_forwarded_alone Sample.environ
           (Sample.client
              (inr (PDict {[ "files" := PNone; "nextPageToken" := PStr "p2" ]})))
           (Sample.bearer "Bearer ya29.abc") ENV_READS
           (mkCredentials "ya29.abc" "my-client" "my-secret" SCOPES) tt
           {[ "files" := PNone; "nextPageToken" := PStr "p2" ]} PNone);
    reflexivity.
Defined.

Lemma only_authorization_and_configuration_matter_witness :
  list_drive_files Sample.environ (Sample.client (inr (PDict ∅)))
    (Sample.bearer "Bearer ya29.abc") =
  list_drive_files Faulty.crowded_environ (Sample.client (inr (PDict ∅)))
    (Faulty.many_headers "Bearer ya29.abc").
Proof.
  apply (only_authorization_and_configuration_matter Sample.environ
           (Sample.client (inr (PDict ∅))) (Sample.bearer "Bearer ya29.abc")
           Faulty.crowded_environ (Faulty.many_headers "Bearer ya29.abc"));
    reflexivity.
Defined.

Lemma returned_error_served_with_200_witness :
  exists t b,
    serve Sample.environ
      (Sample.client (inl (Error "HttpError" "token expired")))
      POST "/gdrive/list_files" (Sample.bearer "Bearer ya29.abc") =
      Some (t, mkResponse 200 b).
Proof.
  eexists _, _.
  apply (returned_error_served_with_200 Sample.environ
           (Sample.client (inl (Error "HttpError" "token expired")))
           (Sample.bearer "Bearer ya29.abc") ENV_READS
           (mkCredentials "ya29.abc" "my-client" "my-secret" SCOPES)
           tt "HttpError" "token expired"); reflexivity.
Defined.

Lemma status_is_200_401_or_500_witness :
  exists t r,
    serve Sample.environ
      (Sample.client (inl (Error "HttpError" "token expired")))
      POST "/gdrive/list_files" (Sample.bearer "Bearer ya29.abc") = Some (t, r) /\
    (status r = 200 \/ status r = 401 \/ status r = 500).
Proof.
  apply (status_is_200_401_or_500 Sample.environ
           (Sample.client (inl (Error "HttpError" "token expired")))
           (Sample.bearer "Bearer ya29.abc")).
  split; intros; discriminate.
Defined.
